(** * Video recording controller

    A shallow embedding of
    [plugin/volumetric_drilling/video_recording_controller.cpp]:
    the controller object as a record, every member function as a function
    from the object (and the results of the external calls it makes) to its
    return value, the object afterwards and the sequence of external effects
    it performed. *)

From Stdlib Require Import ZArith List String Ascii Lia Bool DecimalString.
From Stdlib Require Import DecimalPos DecimalZ.
From Stdlib Require Import Floats.PrimFloat.
From stdpp Require Import base option list.
Import ListNotations.

Local Open Scope string_scope.
Local Open Scope Z_scope.

(** ** Data *)

(** A [double]: the timestamps are stored and handed on, never computed
    with. *)
Definition double : Set := float.

(** [FILE*]: a non-null stream is identified by a number; the null pointer
    is [None] of [option FILE]. *)
Definition FILE : Set := nat.

(** What the controller reads of the host's camera: its name and its
    resolution ([int] fields). *)
Record afCamera : Set := mkCamera {
  getName : string;
  cam_width : Z;
  cam_height : Z
}.

(** The host world, as far as [init] looks into it. *)
Record afWorld : Set := mkWorld {
  getCameras : list afCamera
}.

(** A frame buffer after [setup]. *)
Record cFrameBuffer : Set := mkFrameBuffer {
  fb_camera : afCamera;
  fb_width : Z;
  fb_height : Z
}.

(** An image: bytes per pixel ([unsigned int]) and the pixel bytes. *)
Record cImage : Set := mkImage {
  getBytesPerPixel : Z;
  getData : list Byte.byte
}.

(** The members of [VideoRecordingController] that the member functions
    read or write.  Pointers are [option]s, [None] being null. *)
Record VideoRecordingController : Set := mkController {
  m_worldPtr : option afWorld;
  m_camera : option afCamera;
  m_width : Z;
  m_height : Z;
  m_frameBuffer : option cFrameBuffer;
  m_image : option cImage;
  m_saveDirectory : string;
  m_video_filename : string;
  m_timestamps_filename : string;
  m_ffmpeg : option FILE;
  m_recorded_timestamps : list double
}.

(** ** String helpers *)

Definition nl : string := String (ascii_of_nat 10) EmptyString.

(** [std::to_string] of an [int]: decimal digits, a leading minus sign for
    negative numbers. *)
Definition to_string (n : Z) : string := NilZero.string_of_int (Z.to_int n).

(** [std::string::empty]. *)
Definition empty (s : string) : bool :=
  match s with EmptyString => true | String _ _ => false end.

(** ** External effects *)

(** How [cnpy::npy_save] ends: it returns, or it raises an exception whose
    [what()] is the given text. *)
Inductive npy_result : Set :=
| NpySaved
| NpyRaised (what : string).

(** The calls the controller makes on the outside world, with their
    arguments and the results the outside decides.  The results of [fwrite]
    and [saveToFile] are left out: the code drops them unread.  It drops
    the exit status that [pclose] returns as well; that one is kept here so
    that this can be stated. *)
Inductive Event : Set :=
| Cerr (text : string)
| FrameBufferSetup (cam : afCamera) (width height : Z)
| Popen (cmd mode : string) (result : option FILE)
| RenderView (fb : cFrameBuffer)
| Fwrite (image : cImage) (size count : Z) (stream : FILE)
| SaveToFile (image : cImage) (filename : string)
| Pclose (stream : FILE) (status : Z)
| NpySave (filename : string) (data : list double) (shape : list nat)
          (mode : string) (result : npy_result).

(** What a member function leaves behind: the value handed to the caller,
    the object afterwards, and the effects in the order they happened. *)
Record Outcome (A : Type) : Type := mkOutcome {
  returned : A;
  object : VideoRecordingController;
  effects : list Event
}.
Arguments mkOutcome {A} _ _ _.
Arguments returned {A} _.
Arguments object {A} _.
Arguments effects {A} _.

(** A block of C++ ends normally or by a thrown exception. *)
Inductive completion (A : Type) : Type :=
| Normal (a : A)
| Thrown (what : string).
Arguments Normal {A} _.
Arguments Thrown {A} _.

(** ** Member assignments *)

Definition set_ffmpeg (f : option FILE) (c : VideoRecordingController) :=
  mkController (m_worldPtr c) (m_camera c) (m_width c) (m_height c)
    (m_frameBuffer c) (m_image c) (m_saveDirectory c) (m_video_filename c)
    (m_timestamps_filename c) f (m_recorded_timestamps c).

Definition set_recorded_timestamps (l : list double)
    (c : VideoRecordingController) :=
  mkController (m_worldPtr c) (m_camera c) (m_width c) (m_height c)
    (m_frameBuffer c) (m_image c) (m_saveDirectory c) (m_video_filename c)
    (m_timestamps_filename c) (m_ffmpeg c) l.

Definition set_video_filename (s : string) (c : VideoRecordingController) :=
  mkController (m_worldPtr c) (m_camera c) (m_width c) (m_height c)
    (m_frameBuffer c) (m_image c) (m_saveDirectory c) s
    (m_timestamps_filename c) (m_ffmpeg c) (m_recorded_timestamps c).

Definition set_timestamps_filename (s : string)
    (c : VideoRecordingController) :=
  mkController (m_worldPtr c) (m_camera c) (m_width c) (m_height c)
    (m_frameBuffer c) (m_image c) (m_saveDirectory c) (m_video_filename c)
    s (m_ffmpeg c) (m_recorded_timestamps c).

Definition set_image (i : option cImage) (c : VideoRecordingController) :=
  mkController (m_worldPtr c) (m_camera c) (m_width c) (m_height c)
    (m_frameBuffer c) i (m_saveDirectory c) (m_video_filename c)
    (m_timestamps_filename c) (m_ffmpeg c) (m_recorded_timestamps c).

(** ** [VideoRecordingController::init]

    [a_afWorld] is a pointer; dereferencing null, or taking element 0 of an
    empty camera vector, has no defined behaviour: [None].  [new_image] is
    what [cImage::create()] hands back. *)
Definition init (a_afWorld : option afWorld) (startingDir : string)
    (new_image : cImage) (this : VideoRecordingController)
  : option (Outcome Z) :=
  match a_afWorld with
  | None => None
  | Some world =>
    match getCameras world with
    | [] => None
    | cam :: _ =>
      let width := cam_width cam in
      let height := cam_height cam in
      Some (mkOutcome 1
        (mkController (Some world) (Some cam) width height
           (Some (mkFrameBuffer cam width height)) (Some new_image)
           startingDir (m_video_filename this) (m_timestamps_filename this)
           (m_ffmpeg this) (m_recorded_timestamps this))
        [ Cerr ("INFO! Initializing video recorder plugin variables..." ++ nl);
          FrameBufferSetup cam width height;
          Cerr ("Recording save directory: " ++ startingDir ++ nl);
          Cerr ("INFO! Variables initialized successfully." ++ nl) ])
    end
  end.

(** ** [VideoRecordingController::start_recording] *)

(** The command line, built up by the same sequence of [+=]. *)
Definition ffmpeg_cmd (size_str video_filename : string) : string :=
  let cmd := "ffmpeg" in
  let cmd := cmd ++ " -r 60" in
  let cmd := cmd ++ " -f rawvideo" in
  let cmd := cmd ++ " -pix_fmt rgba" in
  let cmd := cmd ++ (" -s " ++ size_str) in
  let cmd := cmd ++ " -i -" in
  let cmd := cmd ++ " -threads 0" in
  let cmd := cmd ++ " -preset fast" in
  let cmd := cmd ++ " -y" in
  let cmd := cmd ++ " -pix_fmt yuv420p" in
  let cmd := cmd ++ " -crf 21" in
  let cmd := cmd ++ " -vf vflip" in
  cmd ++ (" " ++ video_filename).

(** [popen_result] is what [popen] returns: the stream, or null when the
    process could not be started.  [popen] is a C function and raises
    nothing, so the [catch] around it is never entered.  The locals [now]
    and [timestamps_filename] are computed and not used; they are left
    out. *)
Definition start_recording (world_timestamp : double)
    (popen_result : option FILE) (this : VideoRecordingController)
  : Outcome Z :=
  if negb (bool_decide (is_Some (m_camera this))) || empty (m_saveDirectory this)
  then
    mkOutcome (-1) this
      [ Cerr ("ERROR! Camera or save directory is not initialized. Call init first." ++ nl) ]
  else
    let size_str := (to_string (m_width this) ++ "x") ++ to_string (m_height this) in
    let this := set_video_filename ((m_saveDirectory this ++ "/") ++ "world.mp4") this in
    let cmd := ffmpeg_cmd size_str (m_video_filename this) in
    let this := set_ffmpeg popen_result this in
    let this := set_recorded_timestamps [] this in
    let this :=
      set_recorded_timestamps (m_recorded_timestamps this ++ [world_timestamp])%list this in
    mkOutcome 1 this
      [ Popen cmd "w" popen_result;
        Cerr ("INFO! Recording started: " ++ m_video_filename this ++ nl) ].

(** ** [VideoRecordingController::save_timestamps_to_npy] *)
Definition save_timestamps_to_npy (filename : string)
    (timestamps : list double) (npy : npy_result)
  : completion unit * list Event :=
  let size := length timestamps in
  let saved := NpySave filename timestamps [size] "w" npy in
  match npy with
  | NpySaved =>
      (Normal tt, [ saved; Cerr ("INFO! Timestamps saved to: " ++ filename ++ nl) ])
  | NpyRaised what =>
      (Thrown ("Failed to save timestamps to .npy file: " ++ what), [ saved ])
  end.

(** ** [VideoRecordingController::update]

    [frame] is the picture that [renderView] and [copyImageBuffer] leave in
    [*m_image].  [save_first_frame_img] is the function's [static] flag: it
    comes in as an argument and its value afterwards is returned next to the
    outcome.  Calling through a null [m_frameBuffer], [m_image] or
    [m_camera] has no defined behaviour: [None].  The byte count given to
    [fwrite] is a product with an [unsigned int] factor, so it is taken
    modulo 2^32.  None of the calls in the
    [try] block raises a [std::exception] other than for lack of memory,
    which is not modelled, so the handler is never entered. *)
Definition update (current_timestamp : double) (frame : cImage)
    (save_first_frame_img : bool) (this : VideoRecordingController)
  : option (bool * Outcome unit) :=
  match m_frameBuffer this, m_image this with
  | Some fb, Some _ =>
    let this := set_image (Some frame) this in
    match m_ffmpeg this with
    | Some stream =>
      let size := (getBytesPerPixel frame * m_width this * m_height this) mod 2 ^ 32 in
      let this :=
        set_recorded_timestamps (m_recorded_timestamps this ++ [current_timestamp])%list this in
      let written := [ RenderView fb; Fwrite frame size 1 stream ] in
      if save_first_frame_img then
        match m_camera this with
        | None => None
        | Some cam =>
          let first_frame_filename := getName cam ++ ".png" in
          Some (false, mkOutcome tt this
            (written ++
             [ SaveToFile frame first_frame_filename;
               Cerr ("INFO! First frame saved to: " ++ first_frame_filename ++ nl) ])%list)
        end
      else Some (save_first_frame_img, mkOutcome tt this written)
    | None =>
      Some (save_first_frame_img, mkOutcome tt this
        [ RenderView fb;
          Cerr ("ERROR! FFmpeg process not initialized. Call start_recording first." ++ nl) ])
    end
  | _, _ => None
  end.

(** ** [VideoRecordingController::close]

    [status] is what [pclose] returns (the encoder's exit status), [npy]
    how [cnpy::npy_save] ends. *)
Definition close (status : Z) (npy : npy_result)
    (this : VideoRecordingController) : Outcome bool :=
  match m_ffmpeg this with
  | Some stream =>
    let this := set_ffmpeg None this in
    let this :=
      set_timestamps_filename ((m_saveDirectory this ++ "/") ++ "world_timestamps.npy") this in
    let (saved, out) :=
      save_timestamps_to_npy (m_timestamps_filename this) (m_recorded_timestamps this) npy in
    match saved with
    | Normal _ =>
      mkOutcome true this
        (Pclose stream status :: out ++
         [ Cerr ("INFO! Timestamps saved to: " ++ m_timestamps_filename this ++ nl);
           Cerr ("INFO! Recording completed and resources released." ++ nl) ])%list
    | Thrown what =>
      mkOutcome false this
        (Pclose stream status :: out ++
         [ Cerr ("ERROR! Failed to save timestamps: " ++ what ++ nl) ])%list
    end
  | None => mkOutcome true this []
  end.

Local Open Scope list_scope.

(** ** The process: one static flag, any number of controllers *)

(** [save_first_frame_img] is the [static bool] declared inside [update]:
    one variable for the whole process, shared by every controller object.
    The objects live in a store and are addressed by position. *)
Record Process : Set := mkProcess {
  save_first_frame_img : bool;
  controllers : list VideoRecordingController
}.

(** One call made by the host, with the results of the external calls made
    underneath it.  [New] brings a fresh object, whatever its members hold,
    into the store. *)
Inductive Call : Set :=
| New (fresh : VideoRecordingController)
| Init (i : nat) (a_afWorld : option afWorld) (startingDir : string)
       (new_image : cImage)
| StartRecording (i : nat) (world_timestamp : double)
       (popen_result : option FILE)
| Update (i : nat) (current_timestamp : double) (frame : cImage)
| Close (i : nat) (status : Z) (npy : npy_result).

(** A call on an object that is not there, or one without defined
    behaviour, has no successor. *)
Definition step (p : Process) (c : Call) : option (Process * list Event) :=
  let flag := save_first_frame_img p in
  let objs := controllers p in
  match c with
  | New fresh => Some (mkProcess flag (objs ++ [fresh]), [])
  | Init i w d img =>
      this ← objs !! i;
      o ← init w d img this;
      Some (mkProcess flag (<[i := object o]> objs), effects o)
  | StartRecording i t r =>
      this ← objs !! i;
      let o := start_recording t r this in
      Some (mkProcess flag (<[i := object o]> objs), effects o)
  | Update i t frame =>
      this ← objs !! i;
      '(flag', o) ← update t frame flag this;
      Some (mkProcess flag' (<[i := object o]> objs), effects o)
  | Close i status npy =>
      this ← objs !! i;
      let o := close status npy this in
      Some (mkProcess flag (<[i := object o]> objs), effects o)
  end.

(** The calls are made one after the other for as long as they have a
    successor; the result is the process reached and everything done on the
    way. *)
Fixpoint run (p : Process) (calls : list Call) : Process * list Event :=
  match calls with
  | [] => (p, [])
  | c :: rest =>
    match step p c with
    | None => (p, [])
    | Some (p', evs) =>
      let (q, later) := run p' rest in (q, evs ++ later)
    end
  end.

(** Consecutive [update]s of one object, each with its timestamp and the
    frame rendered for it. *)
Fixpoint updates (ticks : list (double * cImage)) (flag : bool)
    (this : VideoRecordingController)
  : option (bool * VideoRecordingController * list Event) :=
  match ticks with
  | [] => Some (flag, this, [])
  | (t, frame) :: rest =>
    match update t frame flag this with
    | None => None
    | Some (flag', o) =>
      match updates rest flag' (object o) with
      | None => None
      | Some (f, final, later) => Some (f, final, effects o ++ later)
      end
    end
  end.

(** ** Reading a sequence of effects *)

(** The command lines handed to [popen]. *)
Fixpoint popen_cmds (evs : list Event) : list string :=
  match evs with
  | [] => []
  | Popen cmd _ _ :: rest => cmd :: popen_cmds rest
  | _ :: rest => popen_cmds rest
  end.

(** How many still images were written. *)
Fixpoint saves (evs : list Event) : nat :=
  match evs with
  | [] => O
  | SaveToFile _ _ :: rest => S (saves rest)
  | _ :: rest => saves rest
  end.

(** Whether the array writer ended normally. *)
Definition flush_succeeded (npy : npy_result) : bool :=
  match npy with NpySaved => true | NpyRaised _ => false end.

(** The encoder invocation as the interface description gives it, with the
    resolution and the save directory filled in. *)
Definition spec_encoder_command (W H : Z) (saveDirectory : string) : string :=
  ("ffmpeg -r 60 -f rawvideo -pix_fmt rgba -s " ++ to_string W ++ "x" ++
   to_string H ++
   " -i - -threads 0 -preset fast -y -pix_fmt yuv420p -crf 21 -vf vflip " ++
   saveDirectory ++ "/world.mp4")%string.

(** ** States of an object *)

(** Whether [start_recording] goes past its guard. *)
Definition ready (this : VideoRecordingController) : bool :=
  bool_decide (is_Some (m_camera this)) && negb (empty (m_saveDirectory this)).

(** The pointers [update] calls through are set. *)
Definition bound (this : VideoRecordingController) : Prop :=
  is_Some (m_frameBuffer this) /\ is_Some (m_image this)
  /\ is_Some (m_camera this).

(** The path [close] writes the timestamps to. *)
Definition timestamps_path (this : VideoRecordingController) : string :=
  ((m_saveDirectory this ++ "/") ++ "world_timestamps.npy")%string.

(** The object [close] leaves when there was an encoder: the stream pointer
    nulled, the timestamp file name set, everything else as before. *)
Definition closed (this : VideoRecordingController) : VideoRecordingController :=
  mkController (m_worldPtr this) (m_camera this) (m_width this) (m_height this)
    (m_frameBuffer this) (m_image this) (m_saveDirectory this)
    (m_video_filename this) (timestamps_path this) None
    (m_recorded_timestamps this).

(** What the caller of [update] gets back, if the call returns. *)
Definition update_returned (t : double) (frame : cImage) (flag : bool)
    (this : VideoRecordingController) : option unit :=
  match update t frame flag this with
  | Some (_, o) => Some (returned o)
  | None => None
  end.

(** ** The host's callbacks and [reset]

    [keyboardUpdate], [mouseBtnsUpdate], [mousePosUpdate],
    [mouseScrollUpdate], [physicsUpdate] and [reset] have empty bodies.  The
    window pointer the input callbacks take is left out. *)
Inductive Hook : Set :=
| keyboardUpdate (a_key a_scancode a_action a_mods : Z)
| mouseBtnsUpdate (a_button a_action a_modes : Z)
| mousePosUpdate (x_pos y_pos : double)
| mouseScrollUpdate (x_pos y_pos : double)
| physicsUpdate (dt : double)
| reset.

Definition hook (h : Hook) (this : VideoRecordingController) : Outcome unit :=
  match h with
  | keyboardUpdate _ _ _ _ => mkOutcome tt this []
  | mouseBtnsUpdate _ _ _ => mkOutcome tt this []
  | mousePosUpdate _ _ => mkOutcome tt this []
  | mouseScrollUpdate _ _ => mkOutcome tt this []
  | physicsUpdate _ => mkOutcome tt this []
  | reset => mkOutcome tt this []
  end.

(** ** One object driven by its host *)

(** A call on the one object, with the results of the external calls made
    underneath it. *)
Inductive Action : Set :=
| DoInit (a_afWorld : option afWorld) (startingDir : string)
         (new_image : cImage)
| DoStart (world_timestamp : double) (popen_result : option FILE)
| DoUpdate (current_timestamp : double) (frame : cImage)
| DoClose (status : Z) (npy : npy_result)
| DoHook (h : Hook).

(** The static flag and the object. *)
Definition Session : Set := (bool * VideoRecordingController)%type.

Definition act (s : Session) (a : Action) : option (Session * list Event) :=
  let (flag, this) := s in
  match a with
  | DoInit w d img =>
      match init w d img this with
      | Some o => Some ((flag, object o), effects o)
      | None => None
      end
  | DoStart t r =>
      let o := start_recording t r this in Some ((flag, object o), effects o)
  | DoUpdate t frame =>
      match update t frame flag this with
      | Some (flag', o) => Some ((flag', object o), effects o)
      | None => None
      end
  | DoClose status npy =>
      let o := close status npy this in Some ((flag, object o), effects o)
  | DoHook h =>
      let o := hook h this in Some ((flag, object o), effects o)
  end.

(** The actions one after the other, up to the first one without defined
    behaviour. *)
Fixpoint session (s : Session) (actions : list Action)
  : Session * list Event :=
  match actions with
  | [] => (s, [])
  | a :: rest =>
    match act s a with
    | None => (s, [])
    | Some (s', evs) =>
      let (final, later) := session s' rest in (final, evs ++ later)
    end
  end.

Definition is_hook (a : Action) : bool :=
  match a with DoHook _ => true | _ => false end.

(** ** More readings of a sequence of effects *)

(** How many frames were handed to [fwrite]. *)
Fixpoint fwrites (evs : list Event) : nat :=
  match evs with
  | [] => O
  | Fwrite _ _ _ _ :: rest => S (fwrites rest)
  | _ :: rest => fwrites rest
  end.


(** The still images written, with their file names. *)
Fixpoint saved_images (evs : list Event) : list (cImage * string) :=
  match evs with
  | [] => []
  | SaveToFile image filename :: rest => (image, filename) :: saved_images rest
  | _ :: rest => saved_images rest
  end.

(** How many streams [popen] handed out. *)
Fixpoint opened (evs : list Event) : nat :=
  match evs with
  | [] => O
  | Popen _ _ (Some _) :: rest => S (opened rest)
  | _ :: rest => opened rest
  end.

(** How many times [pclose] was called. *)
Fixpoint pcloses (evs : list Event) : nat :=
  match evs with
  | [] => O
  | Pclose _ _ :: rest => S (pcloses rest)
  | _ :: rest => pcloses rest
  end.

(** The arrays handed to the array writer, with their file names. *)
Fixpoint npy_saves (evs : list Event) : list (string * list double) :=
  match evs with
  | [] => []
  | NpySave filename data _ _ _ :: rest => (filename, data) :: npy_saves rest
  | _ :: rest => npy_saves rest
  end.

(** 1 for an object that holds an encoder stream, 0 otherwise. *)
Definition live (this : VideoRecordingController) : nat :=
  match m_ffmpeg this with Some _ => 1%nat | None => O end.

(** ** [createNewDirectory] *)

(** The broken-down local time, the fields [put_time] reads for the format
    used. *)
Record tm : Set := mk_tm {
  tm_year : Z;
  tm_mon : Z;
  tm_mday : Z;
  tm_hour : Z;
  tm_min : Z;
  tm_sec : Z
}.

(** A number in at least two digits, padded with a zero. *)
Definition pad2 (n : Z) : string :=
  let s := to_string n in
  if (String.length s <? 2)%nat then ("0" ++ s)%string else s.

(** [put_time] with the format ["%Y%m%d_%H%M%S"]. *)
Definition put_time (t : tm) : string :=
  (to_string (1900 + tm_year t) ++ pad2 (tm_mon t + 1) ++ pad2 (tm_mday t) ++
   "_" ++ pad2 (tm_hour t) ++ pad2 (tm_min t) ++ pad2 (tm_sec t))%string.

(** The file system, as far as [createNewDirectory] deals with it: the paths
    that exist. *)
Definition FileSystem : Set := list string.

(** [fs::exists]. *)
Definition fs_exists (p : string) (fs : FileSystem) : bool :=
  existsb (String.eqb p) fs.

(** [fs::create_directory] and [fs::create_directories], as the standard
    has them: [false] when the directory is already there, [true] when it
    has been created, an exception when the operating system refuses
    ([os_error] is its text then).  Of the directories
    [fs::create_directories] may create on the way only the last is
    recorded. *)
Definition create_directory (p : string) (os_error : option string)
    (fs : FileSystem) : completion bool * FileSystem :=
  match os_error with
  | Some what => (Thrown what, fs)
  | None =>
    if fs_exists p fs then (Normal false, fs) else (Normal true, p :: fs)
  end.

Definition create_directories := create_directory.

(** What [createNewDirectory] leaves behind: how it ended, the file system
    afterwards, and the lines written to the error stream. *)
Record DirOutcome : Set := mkDirOutcome {
  dir_result : completion string;
  dir_fs : FileSystem;
  dir_cerr : list string
}.

(** [now] is the local time [localtime] hands back; [os_error1] and
    [os_error2] are what the operating system says to the first and the
    second attempt to create a directory. *)
Definition createNewDirectory (baseDir startingDir : string) (now : tm)
    (os_error1 os_error2 : option string) (fs : FileSystem) : DirOutcome :=
  let baseDirectory := ((startingDir ++ "/") ++ baseDir)%string in
  let base :=
    if negb (fs_exists baseDirectory fs) then
      match create_directory baseDirectory os_error1 fs with
      | (Thrown what, fs) => inl (mkDirOutcome (Thrown what) fs [])
      | (Normal false, fs) =>
          inl (mkDirOutcome (Thrown "Base directory creation failed") fs
                 [ ("Failed to create base directory: " ++ baseDirectory ++ nl)%string ])
      | (Normal true, fs) => inr fs
      end
    else inr fs in
  match base with
  | inl thrown => thrown
  | inr fs =>
    let newDir := ((baseDirectory ++ "/") ++ put_time now)%string in
    match create_directories newDir os_error2 fs with
    | (Thrown what, fs) => mkDirOutcome (Thrown what) fs []
    | (Normal false, fs) =>
        mkDirOutcome (Thrown "Directory creation failed") fs
          [ ("Failed to create directory: " ++ newDir ++ nl)%string ]
    | (Normal true, fs) => mkDirOutcome (Normal newDir) fs []
    end
  end.



(** ** Sample objects *)

Definition sample_camera : afCamera := mkCamera "main_camera" 640 480.

Definition sample_image : cImage := mkImage 4 [].

(** A controller as [init] leaves it, not recording. *)
Definition idle_controller : VideoRecordingController :=
  mkController (Some (mkWorld [sample_camera])) (Some sample_camera) 640 480
    (Some (mkFrameBuffer sample_camera 640 480)) (Some sample_image)
    "/tmp/rec" "" "" None [].

(** The same controller while recording, two timestamps taken. *)
Definition recording_controller : VideoRecordingController :=
  mkController (Some (mkWorld [sample_camera])) (Some sample_camera) 640 480
    (Some (mkFrameBuffer sample_camera 640 480)) (Some sample_image)
    "/tmp/rec" "/tmp/rec/world.mp4" "" (Some 7%nat) [0%float; 0.5%float].

(** A sample object on which no member function has been called: null
    pointers, empty strings, empty log. *)
Definition blank_controller : VideoRecordingController :=
  mkController None None 0 0 None None "" "" "" None [].

(** * Properties *)

(** ** Strings *)

Example to_string_640 : to_string 640 = "640".
Proof. reflexivity. Qed.

Example to_string_neg : to_string (-5) = "-5".
Proof. reflexivity. Qed.

Example to_string_zero : to_string 0 = "0".
Proof. reflexivity. Qed.

Lemma append_assoc (a b c : string) :
  ((a ++ b) ++ c = a ++ (b ++ c))%string.
Proof.
  induction a as [|ch a IH]; simpl.
  - reflexivity.
  - now rewrite IH.
Qed.

Lemma empty_false_iff (s : string) : empty s = false <-> s <> ""%string.
Proof.
  destruct s; simpl; split; intro H; congruence.
Qed.

(** The string built by the successive [+=] is the one-line command of the
    interface description. *)
Lemma ffmpeg_cmd_spec (W H : Z) (dir : string) :
  ffmpeg_cmd ((to_string W ++ "x") ++ to_string H)%string
             ((dir ++ "/") ++ "world.mp4")%string
  = spec_encoder_command W H dir.
Proof.
  unfold ffmpeg_cmd, spec_encoder_command.
  cbn [append].
  repeat rewrite append_assoc.
  cbn [append].
  reflexivity.
Qed.

(** ** [start_recording] *)

Lemma start_recording_ready (t : double) (r : option FILE)
    (this : VideoRecordingController) :
  ready this = true ->
  start_recording t r this =
    mkOutcome 1
      (mkController (m_worldPtr this) (m_camera this) (m_width this)
         (m_height this) (m_frameBuffer this) (m_image this)
         (m_saveDirectory this)
         ((m_saveDirectory this ++ "/") ++ "world.mp4")%string
         (m_timestamps_filename this) r [t])
      [ Popen (spec_encoder_command (m_width this) (m_height this)
                 (m_saveDirectory this)) "w" r;
        Cerr ("INFO! Recording started: " ++
              ((m_saveDirectory this ++ "/") ++ "world.mp4") ++ nl)%string ].
Proof.
  unfold ready, start_recording. intros Hr.
  apply andb_true_iff in Hr as [Hc He].
  rewrite Hc. apply negb_true_iff in He. rewrite He. cbn [negb orb].
  cbn -[ffmpeg_cmd to_string append].
  now rewrite ffmpeg_cmd_spec.
Qed.

Lemma start_recording_not_ready (t : double) (r : option FILE)
    (this : VideoRecordingController) :
  ready this = false ->
  start_recording t r this =
    mkOutcome (-1) this
      [ Cerr ("ERROR! Camera or save directory is not initialized. Call init first." ++ nl)%string ].
Proof.
  unfold ready, start_recording. intros Hr.
  apply andb_false_iff in Hr as [Hc | He].
  - now rewrite Hc.
  - apply negb_false_iff in He. rewrite He. now rewrite orb_true_r.
Qed.

Lemma start_recording_returned (t : double) (r : option FILE)
    (this : VideoRecordingController) :
  returned (start_recording t r this) = if ready this then 1 else -1.
Proof.
  destruct (ready this) eqn:Hr.
  - now rewrite start_recording_ready.
  - now rewrite start_recording_not_ready.
Qed.

(** C7. The command handed to [popen] is the fixed ffmpeg line with only
    the session's width, height and save directory filled in; two sessions
    that agree on these three hand over the same command. *)
Theorem start_recording_command_deterministic
    (t1 t2 : double) (r1 r2 : option FILE)
    (this1 this2 : VideoRecordingController) :
  returned (start_recording t1 r1 this1) = 1 ->
  returned (start_recording t2 r2 this2) = 1 ->
  m_width this1 = m_width this2 ->
  m_height this1 = m_height this2 ->
  m_saveDirectory this1 = m_saveDirectory this2 ->
  popen_cmds (effects (start_recording t1 r1 this1)) =
    [ ("ffmpeg -r 60 -f rawvideo -pix_fmt rgba -s " ++
       to_string (m_width this1) ++ "x" ++ to_string (m_height this1) ++
       " -i - -threads 0 -preset fast -y -pix_fmt yuv420p -crf 21 -vf vflip " ++
       m_saveDirectory this1 ++ "/world.mp4")%string ]
  /\ popen_cmds (effects (start_recording t2 r2 this2)) =
     popen_cmds (effects (start_recording t1 r1 this1)).
Proof.
  intros H1 H2 Hw Hh Hd.
  rewrite start_recording_returned in H1, H2.
  destruct (ready this1) eqn:R1; [|discriminate].
  destruct (ready this2) eqn:R2; [|discriminate].
  rewrite !start_recording_ready by assumption.
  cbn [effects popen_cmds].
  rewrite <- Hw, <- Hh, <- Hd.
  split; reflexivity.
Qed.

Lemma start_recording_command_deterministic_witness :
  popen_cmds (effects (start_recording 0%float (Some 7%nat) idle_controller)) =
    [ "ffmpeg -r 60 -f rawvideo -pix_fmt rgba -s 640x480 -i - -threads 0 -preset fast -y -pix_fmt yuv420p -crf 21 -vf vflip /tmp/rec/world.mp4"%string ]
  /\ popen_cmds (effects (start_recording 2%float None recording_controller)) =
     popen_cmds (effects (start_recording 0%float (Some 7%nat) idle_controller)).
Proof.
  apply (start_recording_command_deterministic 0%float 2%float (Some 7%nat) None
           idle_controller recording_controller); reflexivity.
Defined.

(** ** [close] *)

Lemma close_absent (status : Z) (npy : npy_result)
    (this : VideoRecordingController) :
  m_ffmpeg this = None -> close status npy this = mkOutcome true this [].
Proof. unfold close. now intros ->. Qed.

Lemma close_live_saved (status : Z) (stream : FILE)
    (this : VideoRecordingController) :
  m_ffmpeg this = Some stream ->
  close status NpySaved this =
    mkOutcome true (closed this)
      [ Pclose stream status;
        NpySave (timestamps_path this) (m_recorded_timestamps this)
          [length (m_recorded_timestamps this)] "w" NpySaved;
        Cerr ("INFO! Timestamps saved to: " ++ timestamps_path this ++ nl)%string;
        Cerr ("INFO! Timestamps saved to: " ++ timestamps_path this ++ nl)%string;
        Cerr ("INFO! Recording completed and resources released." ++ nl)%string ].
Proof. unfold close. now intros ->. Qed.

Lemma close_live_raised (status : Z) (what : string) (stream : FILE)
    (this : VideoRecordingController) :
  m_ffmpeg this = Some stream ->
  close status (NpyRaised what) this =
    mkOutcome false (closed this)
      [ Pclose stream status;
        NpySave (timestamps_path this) (m_recorded_timestamps this)
          [length (m_recorded_timestamps this)] "w" (NpyRaised what);
        Cerr ("ERROR! Failed to save timestamps: " ++
              ("Failed to save timestamps to .npy file: " ++ what) ++ nl)%string ].
Proof. unfold close. now intros ->. Qed.

(** Whatever happens, no encoder is left after [close]. *)
Lemma close_releases_encoder (status : Z) (npy : npy_result)
    (this : VideoRecordingController) :
  m_ffmpeg (object (close status npy this)) = None.
Proof.
  destruct (m_ffmpeg this) as [stream|] eqn:E.
  - destruct npy.
    + now rewrite (close_live_saved _ stream).
    + now rewrite (close_live_raised _ _ stream).
  - now rewrite close_absent.
Qed.

(** C4. With no encoder, [close] returns [true], leaves the object as it is
    and does nothing outside; that is so on any object whose stream pointer
    is null, and on whatever object an earlier [close] has left. *)
Theorem close_without_encoder_is_noop
    (status status1 status2 : Z) (npy npy1 npy2 : npy_result)
    (this other : VideoRecordingController) :
  m_ffmpeg this = None ->
  close status npy this = mkOutcome true this []
  /\ close status2 npy2 (object (close status1 npy1 other)) =
     mkOutcome true (object (close status1 npy1 other)) [].
Proof.
  intros Hnull. split.
  - now apply close_absent.
  - apply close_absent, close_releases_encoder.
Qed.

Lemma close_without_encoder_is_noop_witness :
  close 0 NpySaved idle_controller = mkOutcome true idle_controller []
  /\ close 1 NpySaved (object (close 0 (NpyRaised "disk full") recording_controller)) =
     mkOutcome true (object (close 0 (NpyRaised "disk full") recording_controller)) [].
Proof.
  apply (close_without_encoder_is_noop 0 0 1 NpySaved (NpyRaised "disk full")
           NpySaved idle_controller recording_controller).
  reflexivity.
Defined.

(** C5, as the code has it.  After a [close] of a live recording that
    returns [true], the whole timestamp log has been handed to the array
    writer, for [<saveDirectory>/world_timestamps.npy], and the log in
    memory is what it was before the call. *)
Theorem close_flushes_and_keeps_log
    (status : Z) (npy : npy_result) (stream : FILE)
    (this : VideoRecordingController) :
  m_ffmpeg this = Some stream ->
  returned (close status npy this) = true ->
  m_recorded_timestamps (object (close status npy this)) =
    m_recorded_timestamps this
  /\ In (NpySave ((m_saveDirectory this ++ "/") ++ "world_timestamps.npy")%string
           (m_recorded_timestamps this)
           [length (m_recorded_timestamps this)] "w" NpySaved)
        (effects (close status npy this)).
Proof.
  intros Hlive Hret.
  destruct npy as [|what].
  - rewrite (close_live_saved _ stream) by assumption.
    split; [reflexivity|]. cbn [effects]. right. now left.
  - rewrite (close_live_raised _ _ stream) in Hret by assumption.
    discriminate.
Qed.

Lemma close_flushes_and_keeps_log_witness :
  m_recorded_timestamps (object (close 0 NpySaved recording_controller)) =
    [0%float; 0.5%float]
  /\ In (NpySave "/tmp/rec/world_timestamps.npy" [0%float; 0.5%float]
           [2%nat] "w" NpySaved)
        (effects (close 0 NpySaved recording_controller)).
Proof.
  apply (close_flushes_and_keeps_log 0 NpySaved 7%nat recording_controller);
    reflexivity.
Defined.

(** C5 as stated fails: a live recording with two timestamps is closed, the
    flush succeeds, [close] returns [true], and the log in memory still
    holds the two timestamps. *)
Lemma close_does_not_clear_log :
  m_ffmpeg recording_controller = Some 7%nat
  /\ returned (close 0 NpySaved recording_controller) = true
  /\ m_recorded_timestamps (object (close 0 NpySaved recording_controller)) =
     [0%float; 0.5%float]
  /\ m_recorded_timestamps (object (close 0 NpySaved recording_controller)) <> [].
Proof.
  repeat split; try reflexivity.
  cbn. discriminate.
Qed.

(** C6. When the array writer fails on a live recording, [close] returns
    [false]; the encoder stream has been closed by then, before the writer
    was called, and the stream pointer is null afterwards. *)
Theorem close_flush_failure_after_encoder_closed
    (status : Z) (what : string) (stream : FILE)
    (this : VideoRecordingController) :
  m_ffmpeg this = Some stream ->
  returned (close status (NpyRaised what) this) = false
  /\ m_ffmpeg (object (close status (NpyRaised what) this)) = None
  /\ exists report,
       effects (close status (NpyRaised what) this) =
         [ Pclose stream status;
           NpySave ((m_saveDirectory this ++ "/") ++ "world_timestamps.npy")%string
             (m_recorded_timestamps this)
             [length (m_recorded_timestamps this)] "w" (NpyRaised what);
           Cerr report ].
Proof.
  intros Hlive.
  rewrite (close_live_raised _ _ stream) by assumption.
  cbn [returned object effects closed m_ffmpeg].
  repeat split. eexists. reflexivity.
Qed.

Lemma close_flush_failure_after_encoder_closed_witness :
  returned (close 0 (NpyRaised "disk full") recording_controller) = false
  /\ m_ffmpeg (object (close 0 (NpyRaised "disk full") recording_controller)) = None
  /\ exists report,
       effects (close 0 (NpyRaised "disk full") recording_controller) =
         [ Pclose 7%nat 0;
           NpySave "/tmp/rec/world_timestamps.npy" [0%float; 0.5%float]
             [2%nat] "w" (NpyRaised "disk full");
           Cerr report ].
Proof.
  apply (close_flush_failure_after_encoder_closed 0 "disk full" 7%nat
           recording_controller).
  reflexivity.
Defined.

(** C10. On a live recording the value [close] returns is whether the array
    writer ended normally; the encoder's exit status, which [pclose] hands
    back, plays no part: any two statuses give the same value, and a
    successful flush gives [true]. *)
Theorem close_result_ignores_exit_status
    (status status' : Z) (npy : npy_result) (stream : FILE)
    (this : VideoRecordingController) :
  m_ffmpeg this = Some stream ->
  returned (close status npy this) = flush_succeeded npy
  /\ returned (close status npy this) = returned (close status' npy this)
  /\ returned (close status NpySaved this) = true.
Proof.
  intros Hlive.
  destruct npy as [|what].
  - rewrite !(close_live_saved _ stream) by assumption. now repeat split.
  - rewrite !(close_live_raised _ _ stream), (close_live_saved _ stream)
      by assumption.
    now repeat split.
Qed.

Lemma close_result_ignores_exit_status_witness :
  returned (close 256 NpySaved recording_controller) = flush_succeeded NpySaved
  /\ returned (close 256 NpySaved recording_controller) =
     returned (close 0 NpySaved recording_controller)
  /\ returned (close 256 NpySaved recording_controller) = true.
Proof.
  apply (close_result_ignores_exit_status 256 0 NpySaved 7%nat
           recording_controller).
  reflexivity.
Defined.

(** ** [update] *)

Lemma update_absent (t : double) (frame : cImage) (flag : bool)
    (fb : cFrameBuffer) (old : cImage) (this : VideoRecordingController) :
  m_frameBuffer this = Some fb ->
  m_image this = Some old ->
  m_ffmpeg this = None ->
  update t frame flag this =
    Some (flag, mkOutcome tt (set_image (Some frame) this)
      [ RenderView fb;
        Cerr ("ERROR! FFmpeg process not initialized. Call start_recording first." ++ nl)%string ]).
Proof. unfold update. now intros -> -> Hn; cbn; rewrite Hn. Qed.

(** With an encoder and the pointers set, [update] returns, leaves the
    pointers and the encoder as they were, and has the timestamp appended. *)
Lemma update_live (t : double) (frame : cImage) (flag : bool) (stream : FILE)
    (this : VideoRecordingController) :
  bound this ->
  m_ffmpeg this = Some stream ->
  exists flag' o,
    update t frame flag this = Some (flag', o)
    /\ bound (object o)
    /\ m_ffmpeg (object o) = Some stream
    /\ m_recorded_timestamps (object o) = m_recorded_timestamps this ++ [t].
Proof.
  intros (Hfb & Him & Hcam) Hlive.
  destruct Hfb as [fb Hfb], Him as [old Him], Hcam as [cam Hcam].
  unfold update. rewrite Hfb, Him. cbn. rewrite Hlive.
  destruct flag.
  - rewrite Hcam. do 2 eexists. split; [reflexivity|].
    cbn. unfold bound. cbn. rewrite Hfb, Hcam. repeat split; eauto.
  - do 2 eexists. split; [reflexivity|].
    cbn. unfold bound. cbn. rewrite Hfb, Hcam. repeat split; eauto.
Qed.

Lemma updates_live (ticks : list (double * cImage)) :
  forall (flag : bool) (stream : FILE) (this : VideoRecordingController),
  bound this ->
  m_ffmpeg this = Some stream ->
  exists flag' final evs,
    updates ticks flag this = Some (flag', final, evs)
    /\ m_ffmpeg final = Some stream
    /\ m_recorded_timestamps final =
       m_recorded_timestamps this ++ map fst ticks.
Proof.
  induction ticks as [|[t frame] rest IH]; intros flag stream this Hb Hlive.
  - exists flag, this, []. cbn. rewrite app_nil_r. auto.
  - destruct (update_live t frame flag stream this Hb Hlive)
      as (flag1 & o & Hu & Hb1 & Hlive1 & Hlog1).
    destruct (IH flag1 stream (object o) Hb1 Hlive1)
      as (flag2 & final & evs & Hus & Hlive2 & Hlog2).
    exists flag2, final, (effects o ++ evs).
    cbn [updates]. rewrite Hu, Hus.
    split; [reflexivity|]. split; [assumption|].
    rewrite Hlog2, Hlog1. cbn [map fst]. now rewrite <- app_assoc.
Qed.

Lemma init_bound (world : option afWorld) (dir : string) (img : cImage)
    (this : VideoRecordingController) (o : Outcome Z) :
  init world dir img this = Some o ->
  returned o = 1 /\ bound (object o) /\ m_saveDirectory (object o) = dir.
Proof.
  unfold init. destruct world as [w|]; [|discriminate].
  destruct (getCameras w) as [|cam rest]; [discriminate|].
  intros [= <-]. cbn. unfold bound. cbn. repeat split; eauto.
Qed.

(** C1. After [init] has returned, [start_recording t0] has gone through
    with [popen] handing back a stream, and [update] has been called once
    for each of N ticks, the log holds [t0] followed by the N timestamps in
    the order of the calls: N+1 entries.  Every one of the calls returns. *)
Theorem log_after_start_and_updates
    (world : option afWorld) (dir : string) (img : cImage)
    (this0 : VideoRecordingController) (o1 : Outcome Z)
    (t0 : double) (stream : FILE) (ticks : list (double * cImage))
    (flag : bool) :
  init world dir img this0 = Some o1 ->
  returned (start_recording t0 (Some stream) (object o1)) = 1 ->
  returned o1 = 1
  /\ exists flag' final evs,
       updates ticks flag (object (start_recording t0 (Some stream) (object o1)))
         = Some (flag', final, evs)
       /\ m_recorded_timestamps final = t0 :: map fst ticks
       /\ length (m_recorded_timestamps final) = S (length ticks).
Proof.
  intros Hinit Hstart.
  destruct (init_bound _ _ _ _ _ Hinit) as (Hret & Hb & Hdir).
  split; [assumption|].
  rewrite start_recording_returned in Hstart.
  destruct (ready (object o1)) eqn:Hr; [|discriminate].
  rewrite start_recording_ready by assumption. cbn [object].
  edestruct (updates_live ticks flag stream) as (flag' & final & evs & Hu & _ & Hlog);
    [| | exists flag', final, evs; split; [exact Hu|] ].
  - destruct Hb as (? & ? & ?). unfold bound. now cbn.
  - reflexivity.
  - rewrite Hlog. cbn. split; [reflexivity|].
    now rewrite length_map.
Qed.

Lemma log_after_start_and_updates_witness :
  exists o1,
    init (Some (mkWorld [sample_camera])) "/tmp/rec" sample_image
      blank_controller = Some o1
    /\ returned o1 = 1
    /\ exists flag' final evs,
         updates [(0.25%float, sample_image); (0.75%float, sample_image)] true
           (object (start_recording 0%float (Some 7%nat) (object o1)))
           = Some (flag', final, evs)
         /\ m_recorded_timestamps final = [0%float; 0.25%float; 0.75%float]
         /\ length (m_recorded_timestamps final) = 3%nat.
Proof.
  eexists. split; [reflexivity|].
  apply (log_after_start_and_updates (Some (mkWorld [sample_camera]))
           "/tmp/rec" sample_image blank_controller _ 0%float 7%nat
           [(0.25%float, sample_image); (0.75%float, sample_image)] true);
    reflexivity.
Defined.

(** C3, as the code has it.  [update] returns nothing ([void]).  Called on
    an initialised object whose encoder stream is null, it writes one error
    line to the error stream and returns, with the timestamp log, the
    stream pointer and the static flag as they were. *)
Theorem update_without_encoder_keeps_log
    (t : double) (frame : cImage) (flag : bool)
    (fb : cFrameBuffer) (old : cImage) (this : VideoRecordingController) :
  m_frameBuffer this = Some fb ->
  m_image this = Some old ->
  m_ffmpeg this = None ->
  exists o,
    update t frame flag this = Some (flag, o)
    /\ returned o = tt
    /\ m_recorded_timestamps (object o) = m_recorded_timestamps this
    /\ m_ffmpeg (object o) = None
    /\ effects o =
       [ RenderView fb;
         Cerr ("ERROR! FFmpeg process not initialized. Call start_recording first." ++ nl)%string ].
Proof.
  intros Hfb Him Hnull.
  rewrite (update_absent t frame flag fb old this Hfb Him Hnull).
  eexists. split; [reflexivity|]. cbn. auto.
Qed.

Lemma update_without_encoder_keeps_log_witness :
  exists o,
    update 1%float sample_image true idle_controller = Some (true, o)
    /\ returned o = tt
    /\ m_recorded_timestamps (object o) = []
    /\ m_ffmpeg (object o) = None
    /\ effects o =
       [ RenderView (mkFrameBuffer sample_camera 640 480);
         Cerr ("ERROR! FFmpeg process not initialized. Call start_recording first." ++ nl)%string ].
Proof.
  apply (update_without_encoder_keeps_log 1%float sample_image true
           (mkFrameBuffer sample_camera 640 480) sample_image idle_controller);
    reflexivity.
Defined.

(** C3 as stated fails: the caller of [update] gets the same (empty) value
    back from a call without encoder as from a call that has recorded a
    frame, so nothing computed from that value tells the two apart. *)
Lemma update_without_encoder_reports_nothing :
  m_ffmpeg idle_controller = None
  /\ m_ffmpeg recording_controller = Some 7%nat
  /\ update_returned 1%float sample_image true idle_controller = Some tt
  /\ update_returned 1%float sample_image true recording_controller = Some tt
  /\ ~ exists is_StateError : option unit -> bool,
         is_StateError (update_returned 1%float sample_image true idle_controller) = true
         /\ is_StateError (update_returned 1%float sample_image true recording_controller) = false.
Proof.
  repeat split.
  intros (f & Ha & Hb).
  change (update_returned 1%float sample_image true idle_controller)
    with (Some tt) in Ha.
  change (update_returned 1%float sample_image true recording_controller)
    with (Some tt) in Hb.
  congruence.
Qed.

(** ** [init] *)

(** C8, as the code has it.  [init] checks neither the resolution nor the
    directory: given a world with a camera it returns 1 whatever the
    camera's width and height and whatever the directory string, and copies
    them into the object.  An empty directory string is turned down only
    later, by [start_recording], which then returns -1. *)
Theorem init_accepts_any_configuration
    (world : afWorld) (cam : afCamera) (others : list afCamera)
    (dir : string) (img : cImage) (this : VideoRecordingController) :
  getCameras world = cam :: others ->
  exists o,
    init (Some world) dir img this = Some o
    /\ returned o = 1
    /\ m_width (object o) = cam_width cam
    /\ m_height (object o) = cam_height cam
    /\ m_saveDirectory (object o) = dir
    /\ forall (t : double) (r : option FILE),
         returned (start_recording t r (object o)) =
           if empty dir then -1 else 1.
Proof.
  intros Hcams. unfold init. rewrite Hcams.
  eexists. split; [reflexivity|]. cbn [returned object m_width m_height m_saveDirectory].
  repeat split.
  intros t r. rewrite start_recording_returned. unfold ready. cbn.
  now destruct (empty dir).
Qed.

Lemma init_accepts_any_configuration_witness :
  exists o,
    init (Some (mkWorld [mkCamera "main_camera" 0 (-480)])) "" sample_image
      blank_controller = Some o
    /\ returned o = 1
    /\ m_width (object o) = 0
    /\ m_height (object o) = -480
    /\ m_saveDirectory (object o) = ""%string
    /\ forall (t : double) (r : option FILE),
         returned (start_recording t r (object o)) = -1.
Proof.
  apply (init_accepts_any_configuration
           (mkWorld [mkCamera "main_camera" 0 (-480)])
           (mkCamera "main_camera" 0 (-480)) [] "" sample_image
           blank_controller).
  reflexivity.
Defined.

(** C8 as stated fails: [init] returns 1 for a camera of resolution 0 x 0,
    for one of negative height, and for the empty directory string. *)
Lemma init_accepts_zero_resolution_and_empty_directory :
  option_map returned
    (init (Some (mkWorld [mkCamera "main_camera" 0 0])) "/tmp/rec"
       sample_image blank_controller) = Some 1
  /\ option_map returned
       (init (Some (mkWorld [mkCamera "main_camera" 640 (-480)])) "/tmp/rec"
          sample_image blank_controller) = Some 1
  /\ option_map returned
       (init (Some (mkWorld [sample_camera])) "" sample_image
          blank_controller) = Some 1.
Proof. repeat split. Qed.

(** ** [start_recording] when the encoder cannot be started *)

(** C2, the code at the failing input.  [popen] hands back null; the call
    still returns 1, announces that recording has started, and resets the
    log to the start timestamp, with a null stream pointer in the object. *)
Example start_recording_spawn_failure :
  let o := start_recording 0%float None idle_controller in
  returned o = 1
  /\ m_ffmpeg (object o) = None
  /\ m_recorded_timestamps (object o) = [0%float]
  /\ effects o =
     [ Popen (spec_encoder_command 640 480 "/tmp/rec") "w" None;
       Cerr ("INFO! Recording started: /tmp/rec/world.mp4" ++ nl)%string ].
Proof. repeat split. Qed.

(** ** The first-frame still image *)

Lemma saves_app (a b : list Event) : saves (a ++ b) = (saves a + saves b)%nat.
Proof.
  induction a as [|e a IH]; [reflexivity|].
  destruct e; cbn [app saves]; rewrite IH; reflexivity.
Qed.

Lemma init_saves_nothing (w : option afWorld) (d : string) (img : cImage)
    (this : VideoRecordingController) (o : Outcome Z) :
  init w d img this = Some o -> saves (effects o) = O.
Proof.
  unfold init. destruct w as [world|]; [|discriminate].
  destruct (getCameras world); [discriminate|].
  now intros [= <-].
Qed.

Lemma start_recording_saves_nothing (t : double) (r : option FILE)
    (this : VideoRecordingController) :
  saves (effects (start_recording t r this)) = O.
Proof.
  destruct (ready this) eqn:Hr.
  - now rewrite start_recording_ready.
  - now rewrite start_recording_not_ready.
Qed.

Lemma close_saves_nothing (status : Z) (npy : npy_result)
    (this : VideoRecordingController) :
  saves (effects (close status npy this)) = O.
Proof.
  destruct (m_ffmpeg this) as [stream|] eqn:E.
  - destruct npy.
    + now rewrite (close_live_saved _ stream).
    + now rewrite (close_live_raised _ _ stream).
  - now rewrite close_absent.
Qed.

(** One [update] writes the still image only if the flag is set, and then
    clears the flag; a cleared flag stays cleared. *)
Lemma update_saves (t : double) (frame : cImage) (flag flag' : bool)
    (this : VideoRecordingController) (o : Outcome unit) :
  update t frame flag this = Some (flag', o) ->
  (saves (effects o) <= (if flag then 1 else 0))%nat
  /\ flag' = flag && (saves (effects o) =? 0)%nat.
Proof.
  unfold update.
  destruct (m_frameBuffer this) as [fb|]; [|discriminate].
  destruct (m_image this) as [old|]; [|discriminate].
  cbn. destruct (m_ffmpeg this) as [stream|].
  - destruct flag.
    + destruct (m_camera this) as [cam|]; [|discriminate].
      intros [= <- <-]. cbn. split; [lia|reflexivity].
    + intros [= <- <-]. cbn. split; [lia|reflexivity].
  - intros [= <- <-]. cbn. split; [destruct flag; lia|].
    now rewrite andb_true_r.
Qed.

Ltac no_save := cbn; split; [lia | now rewrite andb_true_r].

Lemma step_saves (p p' : Process) (c : Call) (evs : list Event) :
  step p c = Some (p', evs) ->
  (saves evs <= (if save_first_frame_img p then 1 else 0))%nat
  /\ save_first_frame_img p' = save_first_frame_img p && (saves evs =? 0)%nat.
Proof.
  unfold step. destruct c as [fresh|i w d img|i t r|i t frame|i status npy].
  - intros [= <- <-]. no_save.
  - destruct (controllers p !! i) as [this|]; [|discriminate]. cbn.
    destruct (init w d img this) as [o|] eqn:Hi; [|discriminate]. cbn.
    intros [= <- <-]. rewrite (init_saves_nothing _ _ _ _ _ Hi). no_save.
  - destruct (controllers p !! i) as [this|]; [|discriminate]. cbn.
    intros [= <- <-]. rewrite start_recording_saves_nothing. no_save.
  - destruct (controllers p !! i) as [this|]; [|discriminate]. cbn.
    destruct (update t frame (save_first_frame_img p) this) as [[flag' o]|] eqn:Hu;
      [|discriminate].
    cbn. intros [= <- <-]. cbn. now apply update_saves in Hu.
  - destruct (controllers p !! i) as [this|]; [|discriminate]. cbn.
    intros [= <- <-]. rewrite close_saves_nothing. no_save.
Qed.

Lemma run_saves (calls : list Call) :
  forall p : Process,
  (saves (snd (run p calls)) <= (if save_first_frame_img p then 1 else 0))%nat
  /\ save_first_frame_img (fst (run p calls)) =
     save_first_frame_img p && (saves (snd (run p calls)) =? 0)%nat.
Proof.
  induction calls as [|c rest IH]; intros p; cbn [run].
  - no_save.
  - destruct (step p c) as [[p' evs]|] eqn:Hs.
    + destruct (step_saves _ _ _ _ Hs) as [Hle Hflag].
      specialize (IH p'). destruct (run p' rest) as [q later].
      cbn [fst snd] in *. rewrite saves_app.
      destruct IH as [IHle IHflag]. rewrite IHflag. rewrite Hflag in *.
      destruct (save_first_frame_img p), (saves evs) as [|n],
        (saves later) as [|m]; cbn in *; split; try lia; reflexivity.
    + no_save.
Qed.

(** C9. Start the process with the flag as its initialiser sets it and any
    objects at all; make any calls, on any of the objects, in any order,
    with any outcome of the external calls.  Then the still image has been
    written at most once, and the flag is still set exactly if it has not
    been written. *)
Theorem first_frame_saved_at_most_once
    (objs : list VideoRecordingController) (calls : list Call) :
  (saves (snd (run (mkProcess true objs) calls)) <= 1)%nat
  /\ save_first_frame_img (fst (run (mkProcess true objs) calls)) =
     (saves (snd (run (mkProcess true objs) calls)) =? 0)%nat.
Proof.
  destruct (run_saves calls (mkProcess true objs)) as [Hle Hflag].
  cbn [save_first_frame_img andb] in *. now split.
Qed.

(** Two sessions on two objects: the first [update] of the first session
    writes the image, no later one does. *)
Example two_sessions_one_image :
  saves (snd (run (mkProcess true [])
    [ New blank_controller;
      Init 0 (Some (mkWorld [sample_camera])) "/tmp/rec" sample_image;
      StartRecording 0 0%float (Some 7%nat);
      Update 0 0.25%float sample_image;
      Update 0 0.5%float sample_image;
      Close 0 0 NpySaved;
      New blank_controller;
      Init 1 (Some (mkWorld [sample_camera])) "/tmp/rec2" sample_image;
      StartRecording 1 1%float (Some 8%nat);
      Update 1 1.25%float sample_image;
      Close 1 0 NpySaved ])) = 1%nat.
Proof. reflexivity. Qed.

(** * Further properties *)

(** ** Counting over concatenated effects *)

Ltac by_event_induction a :=
  let e := fresh "e" in
  let IH := fresh "IH" in
  induction a as [|e a IH]; [reflexivity|];
  destruct e; cbn; rewrite ?IH; try reflexivity.

Lemma fwrites_app (a b : list Event) :
  fwrites (a ++ b) = (fwrites a + fwrites b)%nat.
Proof. by_event_induction a. Qed.

Lemma pcloses_app (a b : list Event) :
  pcloses (a ++ b) = (pcloses a + pcloses b)%nat.
Proof. by_event_induction a. Qed.

Lemma opened_app (a b : list Event) :
  opened (a ++ b) = (opened a + opened b)%nat.
Proof.
  induction a as [|e a IH]; [reflexivity|].
  destruct e as [| | ? ? [?|] | | | | |]; cbn; rewrite ?IH; reflexivity.
Qed.

Lemma saved_images_app (a b : list Event) :
  saved_images (a ++ b) = saved_images a ++ saved_images b.
Proof. by_event_induction a. Qed.

(** ** What one [update] changes *)

(** An [update] that returns has replaced the image, appended the timestamp
    if there is an encoder, and left every other member alone; it has
    written one frame if there is an encoder and none otherwise. *)
Lemma update_frame (t : double) (frame : cImage) (flag flag' : bool)
    (this : VideoRecordingController) (o : Outcome unit) :
  update t frame flag this = Some (flag', o) ->
  object o =
    set_image (Some frame)
      (set_recorded_timestamps
         (m_recorded_timestamps this ++
          match m_ffmpeg this with Some _ => [t] | None => [] end) this)
  /\ fwrites (effects o) = live this
  /\ pcloses (effects o) = O
  /\ opened (effects o) = O.
Proof.
  unfold update, live.
  destruct (m_frameBuffer this) as [fb|]; [|discriminate].
  destruct (m_image this) as [old|]; [|discriminate].
  cbn. destruct (m_ffmpeg this) as [stream|] eqn:Hs.
  - destruct flag.
    + destruct (m_camera this) as [cam|]; [|discriminate].
      intros [= <- <-]. cbn. now repeat split.
    + intros [= <- <-]. cbn. now repeat split.
  - intros [= <- <-]. cbn. rewrite app_nil_r.
    destruct this; cbn in *. now repeat split.
Qed.

(** X3. When a run of [update]s returns, the log has grown by exactly the
    number of frames handed to the encoder: one per tick while an encoder
    stream is held, none while it is not. *)
Theorem updates_frames_match_timestamps
    (ticks : list (double * cImage)) :
  forall (flag flag' : bool) (this final : VideoRecordingController)
         (evs : list Event),
  updates ticks flag this = Some (flag', final, evs) ->
  length (m_recorded_timestamps final) =
    (length (m_recorded_timestamps this) + fwrites evs)%nat
  /\ fwrites evs = (live this * length ticks)%nat.
Proof.
  induction ticks as [|[t frame] rest IH]; intros flag flag' this final evs.
  - intros [= <- <- <-]. cbn. lia.
  - cbn [updates].
    destruct (update t frame flag this) as [[flag1 o]|] eqn:Hu; [|discriminate].
    destruct (updates rest flag1 (object o)) as [[[f fin] later]|] eqn:Hus;
      [|discriminate].
    intros [= <- <- <-].
    destruct (update_frame _ _ _ _ _ _ Hu) as (Hobj & Hfw & _ & _).
    destruct (IH _ _ _ _ _ Hus) as [Hlen Hcount].
    rewrite fwrites_app, Hlen, Hcount, Hfw, Hobj.
    unfold live. cbn.
    destruct (m_ffmpeg this); rewrite length_app; cbn; lia.
Qed.

Lemma updates_frames_match_timestamps_witness :
  exists flag' final evs,
    updates [(1%float, sample_image); (2%float, sample_image)] true
      recording_controller = Some (flag', final, evs)
    /\ length (m_recorded_timestamps final) = (2 + fwrites evs)%nat
    /\ fwrites evs = 2%nat.
Proof.
  do 3 eexists. split; [reflexivity|].
  refine (updates_frames_match_timestamps
            [(1%float, sample_image); (2%float, sample_image)] true _
            recording_controller _ _ _).
  reflexivity.
Defined.

(** ** Updates without an encoder *)

(** X7. On an initialised object without encoder stream, any number of
    [update]s return, hand no frame to an encoder, leave the log and the
    null stream pointer as they are, write no still image and leave the
    one-time flag as it is. *)
Theorem updates_without_encoder_change_nothing
    (ticks : list (double * cImage)) :
  forall (flag : bool) (this : VideoRecordingController),
  is_Some (m_frameBuffer this) ->
  is_Some (m_image this) ->
  m_ffmpeg this = None ->
  exists final evs,
    updates ticks flag this = Some (flag, final, evs)
    /\ m_recorded_timestamps final = m_recorded_timestamps this
    /\ m_ffmpeg final = None
    /\ fwrites evs = O
    /\ saves evs = O.
Proof.
  induction ticks as [|[t frame] rest IH]; intros flag this Hfb Him Hnull.
  - exists this, []. now cbn.
  - destruct Hfb as [fb Hfb], Him as [old Him].
    cbn [updates].
    rewrite (update_absent t frame flag fb old this Hfb Him Hnull).
    cbn [object effects].
    destruct (IH flag (set_image (Some frame) this))
      as (final & evs & Hus & Hlog & Hff & Hfw & Hsv).
    + cbn. rewrite Hfb. eauto.
    + cbn. eauto.
    + exact Hnull.
    + rewrite Hus. do 2 eexists. split; [reflexivity|].
      cbn. now repeat split.
Qed.

Lemma updates_without_encoder_change_nothing_witness :
  exists final evs,
    updates [(1%float, sample_image); (2%float, sample_image)] true
      idle_controller = Some (true, final, evs)
    /\ m_recorded_timestamps final = []
    /\ m_ffmpeg final = None
    /\ fwrites evs = O
    /\ saves evs = O.
Proof.
  apply (updates_without_encoder_change_nothing
           [(1%float, sample_image); (2%float, sample_image)] true
           idle_controller); cbn; eauto.
Defined.

(** ** The still image *)

Lemma updates_flag_down (ticks : list (double * cImage)) :
  forall (this final : VideoRecordingController) (flag' : bool)
         (evs : list Event),
  updates ticks false this = Some (flag', final, evs) ->
  flag' = false /\ saved_images evs = [].
Proof.
  induction ticks as [|[t frame] rest IH]; intros this final flag' evs.
  - now intros [= <- <- <-].
  - cbn [updates].
    destruct (update t frame false this) as [[flag1 o]|] eqn:Hu; [|discriminate].
    destruct (updates rest flag1 (object o)) as [[[f fin] later]|] eqn:Hus;
      [|discriminate].
    intros [= <- <- <-].
    assert (flag1 = false /\ saved_images (effects o) = []) as [-> Ho].
    { revert Hu. unfold update.
      destruct (m_frameBuffer this); [|discriminate].
      destruct (m_image this); [|discriminate].
      cbn. destruct (m_ffmpeg this); intros [= <- <-]; now cbn. }
    destruct (IH _ _ _ _ Hus) as [-> Hl].
    now rewrite saved_images_app, Ho, Hl.
Qed.

(** X6. With the flag still set, the first [update] of a run on a recording
    object writes the one still image: it shows the very frame that this
    call hands to the encoder, and goes to [<camera name>.png], a path
    without directory.  The rest of the run writes none, and the flag is
    down afterwards. *)
Theorem still_image_is_first_recorded_frame
    (t : double) (frame : cImage) (rest : list (double * cImage))
    (this final : VideoRecordingController) (cam : afCamera) (stream : FILE)
    (flag' : bool) (evs : list Event) :
  m_ffmpeg this = Some stream ->
  m_camera this = Some cam ->
  updates ((t, frame) :: rest) true this = Some (flag', final, evs) ->
  flag' = false
  /\ saved_images evs = [ (frame, (getName cam ++ ".png")%string) ]
  /\ exists fb size later,
       evs = RenderView fb :: Fwrite frame size 1 stream
             :: SaveToFile frame (getName cam ++ ".png")%string :: later.
Proof.
  intros Hlive Hcam. cbn [updates]. unfold update.
  destruct (m_frameBuffer this) as [fb|]; [|discriminate].
  destruct (m_image this) as [old|]; [|discriminate].
  cbn. rewrite Hlive, Hcam. cbn.
  destruct (updates rest false _) as [[[f fin] later]|] eqn:Hus; [|discriminate].
  intros [= <- <- <-].
  destruct (updates_flag_down _ _ _ _ _ Hus) as [-> Hl].
  cbn. rewrite Hl. repeat split. eauto.
Qed.

Lemma still_image_is_first_recorded_frame_witness :
  exists flag' final evs,
    updates [(1%float, mkImage 4 [Byte.x78]); (2%float, sample_image)] true
      recording_controller = Some (flag', final, evs)
    /\ flag' = false
    /\ saved_images evs = [ (mkImage 4 [Byte.x78], "main_camera.png"%string) ]
    /\ exists fb size later,
         evs = RenderView fb :: Fwrite (mkImage 4 [Byte.x78]) size 1 7%nat
               :: SaveToFile (mkImage 4 [Byte.x78]) "main_camera.png" :: later.
Proof.
  do 3 eexists. split; [reflexivity|].
  refine (still_image_is_first_recorded_frame 1%float (mkImage 4 [Byte.x78])
            [(2%float, sample_image)] recording_controller _ sample_camera
            7%nat _ _ _ _ _); reflexivity.
Defined.

(** ** [start_recording], refused and repeated *)

(** X1. [start_recording] returns -1 only on an object whose camera pointer
    is null or whose save directory is the empty string; it has then left
    the object as it was, started no process, and written one line to the
    error stream. *)
Theorem start_recording_refused_changes_nothing
    (t : double) (r : option FILE) (this : VideoRecordingController) :
  returned (start_recording t r this) = -1 ->
  (m_camera this = None \/ m_saveDirectory this = ""%string)
  /\ object (start_recording t r this) = this
  /\ effects (start_recording t r this) =
     [ Cerr ("ERROR! Camera or save directory is not initialized. Call init first." ++ nl)%string ].
Proof.
  rewrite start_recording_returned.
  destruct (ready this) eqn:Hr; [discriminate|]. intros _.
  rewrite start_recording_not_ready by assumption.
  split; [|now split].
  unfold ready in Hr. apply andb_false_iff in Hr as [Hc|He].
  - left. destruct (m_camera this) as [cam|]; [|reflexivity].
    exfalso. apply bool_decide_eq_false in Hc. apply Hc. eauto.
  - right. apply negb_false_iff in He.
    destruct (m_saveDirectory this); [reflexivity|discriminate].
Qed.

Lemma start_recording_refused_changes_nothing_witness :
  (m_camera blank_controller = None \/ m_saveDirectory blank_controller = ""%string)
  /\ object (start_recording 0%float (Some 7%nat) blank_controller) =
     blank_controller
  /\ effects (start_recording 0%float (Some 7%nat) blank_controller) =
     [ Cerr ("ERROR! Camera or save directory is not initialized. Call init first." ++ nl)%string ].
Proof.
  apply (start_recording_refused_changes_nothing 0%float (Some 7%nat)
           blank_controller).
  reflexivity.
Defined.

(** X2. A [start_recording] that goes through on an object that already
    holds an encoder stream puts the new [popen] result in its place
    without calling [pclose] on the old one, and drops the timestamps
    logged so far: the log is the new start timestamp alone. *)
Theorem restart_replaces_stream_without_closing
    (t : double) (r : option FILE) (old : FILE)
    (this : VideoRecordingController) :
  m_ffmpeg this = Some old ->
  returned (start_recording t r this) = 1 ->
  m_ffmpeg (object (start_recording t r this)) = r
  /\ m_recorded_timestamps (object (start_recording t r this)) = [t]
  /\ pcloses (effects (start_recording t r this)) = O
  /\ npy_saves (effects (start_recording t r this)) = [].
Proof.
  intros _. rewrite start_recording_returned.
  destruct (ready this) eqn:Hr; [|discriminate]. intros _.
  rewrite start_recording_ready by assumption.
  now repeat split.
Qed.

Lemma restart_replaces_stream_without_closing_witness :
  m_ffmpeg (object (start_recording 3%float (Some 8%nat) recording_controller))
    = Some 8%nat
  /\ m_recorded_timestamps
       (object (start_recording 3%float (Some 8%nat) recording_controller))
     = [3%float]
  /\ pcloses (effects (start_recording 3%float (Some 8%nat) recording_controller)) = O
  /\ npy_saves (effects (start_recording 3%float (Some 8%nat) recording_controller)) = [].
Proof.
  apply (restart_replaces_stream_without_closing 3%float (Some 8%nat) 7%nat
           recording_controller); reflexivity.
Defined.

(** ** The size of a frame *)



(** ** How the calls compose *)




(** X5. [init] on an object that is recording leaves the encoder stream and
    the log in place and takes the new directory.  The video goes on to the
    file under the old directory, and a following [close] writes the
    timestamps under the new one. *)
Theorem reinit_while_recording_splits_the_output
    (world : option afWorld) (dir : string) (img : cImage)
    (this : VideoRecordingController) (o : Outcome Z)
    (stream : FILE) (status : Z) :
  m_ffmpeg this = Some stream ->
  init world dir img this = Some o ->
  m_ffmpeg (object o) = Some stream
  /\ m_recorded_timestamps (object o) = m_recorded_timestamps this
  /\ m_video_filename (object o) = m_video_filename this
  /\ pcloses (effects o) = O
  /\ npy_saves (effects (close status NpySaved (object o))) =
     [ (((dir ++ "/") ++ "world_timestamps.npy")%string,
        m_recorded_timestamps this) ].
Proof.
  intros Hlive. unfold init.
  destruct world as [w|]; [|discriminate].
  destruct (getCameras w) as [|cam rest]; [discriminate|].
  intros [= <-]. cbn [object effects m_ffmpeg m_recorded_timestamps m_video_filename].
  rewrite (close_live_saved _ stream) by (cbn; assumption).
  now repeat split.
Qed.

Lemma reinit_while_recording_splits_the_output_witness :
  exists o,
    init (Some (mkWorld [sample_camera])) "/tmp/other" sample_image
      recording_controller = Some o
    /\ m_ffmpeg (object o) = Some 7%nat
    /\ m_recorded_timestamps (object o) = [0%float; 0.5%float]
    /\ m_video_filename (object o) = "/tmp/rec/world.mp4"%string
    /\ pcloses (effects o) = O
    /\ npy_saves (effects (close 0 NpySaved (object o))) =
       [ ("/tmp/other/world_timestamps.npy"%string, [0%float; 0.5%float]) ].
Proof.
  eexists. split; [reflexivity|].
  apply (reinit_while_recording_splits_the_output
           (Some (mkWorld [sample_camera])) "/tmp/other" sample_image
           recording_controller _ 7%nat 0); reflexivity.
Defined.

(** X11. When the array write fails in [close], the timestamps stay in the
    object but are not written by any later [close]: the next [close]
    returns [true] without calling the array writer, and the next
    [start_recording] that goes through replaces them by its start
    timestamp. *)
Theorem failed_flush_is_not_retried
    (status status' : Z) (what : string) (npy : npy_result) (stream : FILE)
    (t : double) (r : option FILE) (this : VideoRecordingController) :
  let failed := object (close status (NpyRaised what) this) in
  m_ffmpeg this = Some stream ->
  returned (start_recording t r failed) = 1 ->
  m_recorded_timestamps failed = m_recorded_timestamps this
  /\ returned (close status' npy failed) = true
  /\ npy_saves (effects (close status' npy failed)) = []
  /\ m_recorded_timestamps (object (start_recording t r failed)) = [t].
Proof.
  intros failed Hlive. subst failed.
  rewrite (close_live_raised _ _ stream) by assumption.
  cbn [object]. intros Hstart.
  rewrite start_recording_returned in Hstart.
  destruct (ready (closed this)) eqn:Hr; [|discriminate].
  rewrite close_absent by reflexivity.
  rewrite start_recording_ready by exact Hr.
  now repeat split.
Qed.

Lemma failed_flush_is_not_retried_witness :
  let failed := object (close 0 (NpyRaised "disk full") recording_controller) in
  m_recorded_timestamps failed = [0%float; 0.5%float]
  /\ returned (close 0 NpySaved failed) = true
  /\ npy_saves (effects (close 0 NpySaved failed)) = []
  /\ m_recorded_timestamps (object (start_recording 3%float (Some 8%nat) failed))
     = [3%float].
Proof.
  apply (failed_flush_is_not_retried 0 0 "disk full" NpySaved 7%nat 3%float
           (Some 8%nat) recording_controller); reflexivity.
Defined.

(** ** Streams opened and closed *)

Lemma act_streams (s s' : Session) (a : Action) (evs : list Event) :
  act s a = Some (s', evs) ->
  (pcloses evs + live (snd s') <= opened evs + live (snd s))%nat.
Proof.
  destruct s as [flag this]. unfold act.
  destruct a as [w d img|t r|t frame|status npy|h].
  - unfold init. destruct w as [world|]; [|discriminate].
    destruct (getCameras world); [discriminate|].
    intros [= <- <-]. unfold live. cbn. lia.
  - intros [= <- <-]. cbn [snd].
    destruct (ready this) eqn:Hr.
    + rewrite start_recording_ready by assumption.
      unfold live. cbn. destruct r, (m_ffmpeg this); cbn; lia.
    + rewrite start_recording_not_ready by assumption. cbn. lia.
  - destruct (update t frame flag this) as [[flag' o]|] eqn:Hu; [|discriminate].
    intros [= <- <-]. cbn [snd].
    destruct (update_frame _ _ _ _ _ _ Hu) as (Hobj & _ & Hpc & Hop).
    rewrite Hpc, Hop, Hobj. unfold live. cbn. lia.
  - intros [= <- <-]. cbn [snd].
    destruct (m_ffmpeg this) as [stream|] eqn:E.
    + destruct npy.
      * rewrite (close_live_saved _ stream) by assumption.
        unfold live. rewrite E. cbn. lia.
      * rewrite (close_live_raised _ _ stream) by assumption.
        unfold live. rewrite E. cbn. lia.
    + rewrite close_absent by assumption. cbn. lia.
  - intros [= <- <-]. destruct h; cbn; lia.
Qed.

(** X9. However one object is driven, [pclose] is never called more often
    than there were streams to close: the calls to [pclose], plus one if
    the object still holds a stream at the end, never exceed the streams
    [popen] has handed out, plus one if the object held a stream at the
    beginning. *)
Theorem pclose_only_what_was_opened (actions : list Action) :
  forall s : Session,
  (pcloses (snd (session s actions)) + live (snd (fst (session s actions)))
   <= opened (snd (session s actions)) + live (snd s))%nat.
Proof.
  induction actions as [|a rest IH]; intros s; cbn [session].
  - cbn. lia.
  - destruct (act s a) as [[s' evs]|] eqn:Ha.
    + specialize (IH s'). apply act_streams in Ha.
      destruct (session s' rest) as [final later]. cbn [fst snd] in *.
      rewrite pcloses_app, opened_app. lia.
    + cbn. lia.
Qed.

(** ** The callbacks *)

(** X10. The input callbacks, [physicsUpdate] and [reset] can be called
    anywhere in between without a trace: taking them out of a sequence of
    calls changes neither the object and the flag reached nor the effects
    on the outside.  In particular [reset] neither stops a recording nor
    clears the log. *)
Theorem callbacks_leave_no_trace (actions : list Action) :
  forall s : Session,
  session s (List.filter (fun a => negb (is_hook a)) actions) =
    session s actions.
Proof.
  induction actions as [|a rest IH]; intros s; [reflexivity|].
  destruct a as [w d img|t r|t frame|status npy|h];
    try (cbn [List.filter is_hook negb session];
         destruct (act s _) as [[s' evs]|]; [rewrite IH|]; reflexivity).
  cbn [List.filter is_hook negb]. rewrite IH. cbn [session].
  destruct s as [flag this]. destruct h; cbn [act hook object effects];
    now destruct (session (flag, this) rest).
Qed.

(** ** Directory names *)




Lemma append_longer_neq (a : string) (c : ascii) (x : string) :
  (a ++ String c x)%string <> a.
Proof.
  induction a as [|d a IH]; cbn; [discriminate|].
  intros [= H]. now apply IH.
Qed.







(** ** [createNewDirectory] *)

Lemma fs_exists_here (p : string) (fs : FileSystem) :
  fs_exists p (p :: fs) = true.
Proof. unfold fs_exists. cbn. now rewrite String.eqb_refl. Qed.

Lemma fs_exists_later (p q : string) (fs : FileSystem) :
  fs_exists p fs = true -> fs_exists p (q :: fs) = true.
Proof. unfold fs_exists. cbn. intros ->. apply orb_true_r. Qed.

Lemma fs_exists_other (p q : string) (fs : FileSystem) :
  p <> q -> fs_exists p (q :: fs) = fs_exists p fs.
Proof.
  intros Hne. unfold fs_exists. cbn.
  apply String.eqb_neq in Hne. now rewrite Hne.
Qed.

Lemma new_dir_is_not_base (base stamp : string) :
  ((base ++ "/") ++ stamp)%string <> base.
Proof. rewrite append_assoc. cbn. apply append_longer_neq. Qed.

(** X12. When the operating system refuses nothing and the time-stamped
    directory is not there yet, [createNewDirectory] returns
    [<startingDir>/<baseDir>/<time stamp>]; this directory and the base
    directory exist afterwards, whatever existed before still exists, and
    nothing is written to the error stream. *)
Theorem createNewDirectory_creates
    (baseDir startingDir : string) (now : tm) (fs : FileSystem) :
  let base := ((startingDir ++ "/") ++ baseDir)%string in
  let newDir := ((base ++ "/") ++ put_time now)%string in
  let o := createNewDirectory baseDir startingDir now None None fs in
  fs_exists newDir fs = false ->
  dir_result o = Normal newDir
  /\ fs_exists base (dir_fs o) = true
  /\ fs_exists newDir (dir_fs o) = true
  /\ dir_cerr o = []
  /\ forall p, fs_exists p fs = true -> fs_exists p (dir_fs o) = true.
Proof.
  intros base newDir o Hnew. subst o. unfold createNewDirectory.
  fold base. fold newDir.
  destruct (fs_exists base fs) eqn:Hbase; cbn [negb].
  - unfold create_directories, create_directory. rewrite Hnew.
    cbn [dir_result dir_fs dir_cerr].
    repeat split.
    + now apply fs_exists_later.
    + apply fs_exists_here.
    + intros p Hp. now apply fs_exists_later.
  - unfold create_directories, create_directory. rewrite Hbase.
    rewrite fs_exists_other by apply new_dir_is_not_base.
    rewrite Hnew. cbn [dir_result dir_fs dir_cerr].
    repeat split.
    + apply fs_exists_later, fs_exists_here.
    + apply fs_exists_here.
    + intros p Hp. now do 2 apply fs_exists_later.
Qed.

Lemma createNewDirectory_creates_witness :
  let o := createNewDirectory "Simulator_Recordings" "/home/user"
             (mk_tm 124 11 3 9 5 0) None None ["/home/user"%string] in
  dir_result o = Normal "/home/user/Simulator_Recordings/20241203_090500"%string
  /\ fs_exists "/home/user/Simulator_Recordings" (dir_fs o) = true
  /\ fs_exists "/home/user/Simulator_Recordings/20241203_090500" (dir_fs o) = true
  /\ dir_cerr o = []
  /\ forall p, fs_exists p ["/home/user"%string] = true ->
               fs_exists p (dir_fs o) = true.
Proof.
  apply (createNewDirectory_creates "Simulator_Recordings" "/home/user"
           (mk_tm 124 11 3 9 5 0) ["/home/user"%string]).
  reflexivity.
Defined.

(** X13. Called again with the same arguments within the same second of
    local time, [createNewDirectory] does not hand back the directory it has
    just made: [fs::create_directories] reports [false] for a directory
    that is there, and the call ends with the exception
    "Directory creation failed", the file system unchanged. *)
Theorem createNewDirectory_twice_in_a_second_throws
    (baseDir startingDir : string) (now : tm)
    (os_error1 os_error2 os_error1' : option string) (fs : FileSystem)
    (made : string) :
  let first := createNewDirectory baseDir startingDir now os_error1 os_error2 fs in
  let second :=
    createNewDirectory baseDir startingDir now os_error1' None (dir_fs first) in
  dir_result first = Normal made ->
  dir_result second = Thrown "Directory creation failed"
  /\ dir_fs second = dir_fs first
  /\ dir_cerr second = [ ("Failed to create directory: " ++ made ++ nl)%string ].
Proof.
  intros first second. subst first second. unfold createNewDirectory.
  set (base := ((startingDir ++ "/") ++ baseDir)%string).
  set (newDir := ((base ++ "/") ++ put_time now)%string).
  unfold create_directories, create_directory.
  destruct (fs_exists base fs) eqn:Hbase; cbn [negb].
  - destruct os_error2 as [what|]; [discriminate|].
    destruct (fs_exists newDir fs); [discriminate|].
    cbn [dir_result dir_fs]. intros [= <-].
    destruct (fs_exists base (newDir :: fs)) eqn:E;
      [|rewrite (fs_exists_later _ _ _ Hbase) in E; discriminate].
    cbn [negb]. rewrite fs_exists_here. now cbn.
  - destruct os_error1 as [what|]; [discriminate|].
    destruct os_error2 as [what|]; [discriminate|].
    destruct (fs_exists newDir (base :: fs)); [discriminate|].
    cbn [dir_result dir_fs]. intros [= <-].
    rewrite (fs_exists_later base newDir (base :: fs) (fs_exists_here base fs)).
    cbn [negb]. rewrite fs_exists_here. now cbn.
Qed.

Lemma createNewDirectory_twice_in_a_second_throws_witness :
  let first := createNewDirectory "Simulator_Recordings" "/home/user"
                 (mk_tm 124 11 3 9 5 0) None None ["/home/user"%string] in
  let second := createNewDirectory "Simulator_Recordings" "/home/user"
                  (mk_tm 124 11 3 9 5 0) None None (dir_fs first) in
  dir_result second = Thrown "Directory creation failed"
  /\ dir_fs second = dir_fs first
  /\ dir_cerr second =
     [ ("Failed to create directory: " ++
        "/home/user/Simulator_Recordings/20241203_090500" ++ nl)%string ].
Proof.
  apply (createNewDirectory_twice_in_a_second_throws "Simulator_Recordings"
           "/home/user" (mk_tm 124 11 3 9 5 0) None None None
           ["/home/user"%string]
           "/home/user/Simulator_Recordings/20241203_090500").
  reflexivity.
Defined.

(** X14. [createNewDirectory] complains on the error stream only when the
    time-stamped directory was already there, and then ends with
    "Directory creation failed".  The branch for a base directory that
    could not be created is never taken: [fs::create_directory] answers
    [false] only for a directory that exists, and the base directory has
    just been found missing. *)
Theorem createNewDirectory_complains_only_of_existing_stamp
    (baseDir startingDir : string) (now : tm)
    (os_error1 os_error2 : option string) (fs : FileSystem) :
  let base := ((startingDir ++ "/") ++ baseDir)%string in
  let newDir := ((base ++ "/") ++ put_time now)%string in
  let o := createNewDirectory baseDir startingDir now os_error1 os_error2 fs in
  dir_cerr o <> [] ->
  fs_exists newDir fs = true
  /\ dir_result o = Thrown "Directory creation failed"
  /\ dir_cerr o = [ ("Failed to create directory: " ++ newDir ++ nl)%string ].
Proof.
  intros base newDir o. subst o. unfold createNewDirectory.
  fold base. fold newDir.
  unfold create_directories, create_directory.
  destruct (fs_exists base fs) eqn:Hbase; cbn [negb].
  - destruct os_error2 as [what|]; [now cbn|].
    destruct (fs_exists newDir fs); now cbn.
  - destruct os_error1 as [what|]; [now cbn|].
    destruct os_error2 as [what|]; [now cbn|].
    rewrite fs_exists_other by apply new_dir_is_not_base.
    destruct (fs_exists newDir fs); now cbn.
Qed.

Lemma createNewDirectory_complains_only_of_existing_stamp_witness :
  let o := createNewDirectory "Simulator_Recordings" "/home/user"
             (mk_tm 124 11 3 9 5 0) None None
             [ "/home/user/Simulator_Recordings/20241203_090500"%string;
               "/home/user/Simulator_Recordings"%string ] in
  fs_exists "/home/user/Simulator_Recordings/20241203_090500"
    [ "/home/user/Simulator_Recordings/20241203_090500"%string;
      "/home/user/Simulator_Recordings"%string ] = true
  /\ dir_result o = Thrown "Directory creation failed"
  /\ dir_cerr o =
     [ ("Failed to create directory: " ++
        "/home/user/Simulator_Recordings/20241203_090500" ++ nl)%string ].
Proof.
  apply (createNewDirectory_complains_only_of_existing_stamp
           "Simulator_Recordings" "/home/user" (mk_tm 124 11 3 9 5 0)
           None None
           [ "/home/user/Simulator_Recordings/20241203_090500"%string;
             "/home/user/Simulator_Recordings"%string ]).
  cbn. discriminate.
Defined.
